(** * Tactile map generator: geometry consolidation and mesh synthesis

    A shallow embedding of [process_geometries] and [generate_3d_model]
    of [tactile_map_generator.py].

    Python floats are idealised as exact rationals ([Q]).  The calls into
    shapely, trimesh and osmnx are the operations of three interfaces
    ([Shapely], [Trimesh], [OSMnx]); the two functions of the program are
    written once, over any implementation of them.  Console output and
    the exported files are kept in an explicit [World]; exceptions are an
    explicit result.  A library call is fallible exactly where the
    program guards it with [try] ([buffer], [extrude_polygon]) or where
    Python itself raises ([max] of an empty sequence, [coords] of a
    geometry that has none); every other library call, [export]
    included, is taken to return. *)

From Stdlib Require Import List String QArith ZArith Lia Bool Arith.
From Stdlib Require Import DecimalString Qround Lqa.
Import ListNotations.
Set Warnings "-register-all".
Open Scope Q_scope.

(** ** Planar geometries *)

Definition coord : Type := (Q * Q)%type.

(** A polygon: outer ring and holes, the rings as the constructor
    received them (the closing edge back to the first vertex is
    implicit). *)
Record polygon : Type := mkPolygon {
  exterior : list coord;
  interiors : list (list coord)
}.

(** shapely's geometry classes.  [LinearRing] is a subclass of
    [LineString]. *)
Inductive Geometry : Type :=
| Point (c : coord)
| LineString (cs : list coord)
| LinearRing (cs : list coord)
| Polygon (p : polygon)
| MultiPoint (cs : list coord)
| MultiLineString (ls : list (list coord))
| MultiPolygon (geoms : list polygon)
| GeometryCollection (gs : list Geometry).

Definition Qltb (x y : Q) : bool := negb (Qle_bool y x).

Definition Qabs' (x : Q) : Q := if Qle_bool 0 x then x else - x.

(** Twice the signed area of a ring (shoelace sum, with the closing
    edge). *)
Fixpoint shoelace_from (first : coord) (cs : list coord) : Q :=
  match cs with
  | [] => 0
  | [(x, y)] => x * snd first - fst first * y
  | (x, y) :: (((x', y') :: _) as rest) =>
      (x * y' - x' * y) + shoelace_from first rest
  end.

Definition ring_area (cs : list coord) : Q :=
  match cs with
  | [] => 0
  | first :: _ => Qabs' (shoelace_from first cs) / 2
  end.

Definition Qsum (xs : list Q) : Q := fold_right Qplus 0 xs.

Definition polygon_area (p : polygon) : Q :=
  ring_area (exterior p) - Qsum (map ring_area (interiors p)).

(** The [area] property: shell minus holes for a polygon, the sum of the
    members for a collection, zero for points and curves. *)
Fixpoint area (g : Geometry) : Q :=
  match g with
  | Polygon p => polygon_area p
  | MultiPolygon geoms => Qsum (map polygon_area geoms)
  | GeometryCollection gs => fold_right (fun g acc => area g + acc) 0 gs
  | _ => 0
  end.

(** [isinstance(g, MultiPolygon)] is the match on the constructor;
    [isinstance(g, LineString)] also holds of the subclass. *)
Definition isinstance_LineString (g : Geometry) : bool :=
  match g with
  | LineString _ | LinearRing _ => true
  | _ => false
  end.

(** ** Exceptions *)

Inductive exn : Type :=
| ValueError (msg : string)
| NotImplementedError (msg : string)
| LibraryError (msg : string).

Inductive Result (A : Type) : Type :=
| Return (a : A)
| Raise (e : exn).
Arguments Return {A} a.
Arguments Raise {A} e.

(** The [coords] property: the coordinate sequence of a point, a curve
    or a ring; multi-part geometries and polygons have none. *)
Definition coords (g : Geometry) : Result (list coord) :=
  match g with
  | Point c => Return [c]
  | LineString cs | LinearRing cs => Return cs
  | Polygon _ =>
      Raise (NotImplementedError "Component rings have coordinate sequences, but the polygon does not")
  | _ =>
      Raise (NotImplementedError "Sub-geometries may have coordinate sequences, but multi-part geometries do not")
  end.

(** Python's [max(xs, key=key)]: the first element whose key no later
    element exceeds; an element replaces the current best only when its
    key is strictly greater. *)
Definition py_max {A : Type} (key : A -> Q) (xs : list A) : Result A :=
  match xs with
  | [] => Raise (ValueError "max() iterable argument is empty")
  | x :: rest =>
      Return (fold_left (fun best y => if Qltb (key best) (key y) then y else best) rest x)
  end.

(** ** Meshes, output and the world *)

Definition vec3 : Type := (Q * Q * Q)%type.

Definition vneg (v : vec3) : vec3 :=
  let '(x, y, z) := v in (- x, - y, - z).

Definition vadd (u v : vec3) : vec3 :=
  let '(x, y, z) := u in let '(x', y', z') := v in (x + x', y + y', z + z').

Definition veq (u v : vec3) : Prop :=
  let '(x, y, z) := u in let '(x', y', z') := v in x == x' /\ y == y' /\ z == z'.

Definition origin : vec3 := (0, 0, 0).

Definition Bounds : Type := (vec3 * vec3)%type.

(** What [print] receives: a literal line, or one of the formatted
    lines with its arguments. *)
Inductive Output : Type :=
| Line (s : string)
| FoundPaths (n : nat)
| PathBounds (i : nat) (b : Bounds)
| PathFailed (i : nat) (e : exn)
| Saved (output_file : string).

Record World (Mesh : Type) : Type := mkWorld {
  stdout : list Output;
  files : list (string * Mesh)
}.
Arguments mkWorld {Mesh}.
Arguments stdout {Mesh}.
Arguments files {Mesh}.

(** ** The libraries *)

Class Shapely : Type := {
  unary_union : list Geometry -> Geometry;
  is_valid : Geometry -> bool;
  buffer : Geometry -> Q -> Result Geometry;
  simplify : Geometry -> Q -> Geometry
}.

Class Trimesh (Mesh : Type) : Type := {
  extrude_polygon : Geometry -> Q -> Result Mesh;
  box : vec3 -> Mesh;
  concatenate : list Mesh -> Mesh;
  is_empty : Mesh -> bool;
  centroid : Mesh -> vec3;
  apply_translation : Mesh -> vec3 -> Mesh;
  bounds : Mesh -> Bounds
}.

Class OSMnx (Graph : Type) : Type := {
  graph_to_gdfs : Graph -> list Geometry
}.

(** ** Statements with output and exceptions *)

Module Py.
Section Monad.
Context {Mesh : Type}.

Definition M (A : Type) : Type := World Mesh -> Result A * World Mesh.

Definition ret {A} (a : A) : M A := fun w => (Return a, w).

Definition bind {A B} (c : M A) (k : A -> M B) : M B :=
  fun w =>
    match c w with
    | (Return a, w') => k a w'
    | (Raise e, w') => (Raise e, w')
    end.

Definition raise {A} (e : exn) : M A := fun w => (Raise e, w).

Definition lift {A} (r : Result A) : M A := fun w => (r, w).

(** [try: c  except Exception as e: h e]; what [c] printed or wrote
    before it raised stays. *)
Definition try_except {A} (c : M A) (h : exn -> M A) : M A :=
  fun w =>
    match c w with
    | (Return a, w') => (Return a, w')
    | (Raise e, w') => h e w'
    end.

Definition print (o : Output) : M unit :=
  fun w => (Return tt, mkWorld (stdout w ++ [o]) (files w)).

Definition export (m : Mesh) (output_file : string) : M unit :=
  fun w => (Return tt, mkWorld (stdout w) ((output_file, m) :: files w)).

(** [for x in xs: acc = body x acc] *)
Fixpoint for_each {A S} (xs : list A) (body : A -> S -> M S) (acc : S) : M S :=
  match xs with
  | [] => ret acc
  | x :: rest => bind (body x acc) (for_each rest body)
  end.
End Monad.
End Py.

Declare Scope py_scope.
Delimit Scope py_scope with py.
Notation "x <- c ;; k" := (Py.bind c (fun x => k))
(at level 61, c at next level, right associativity) : py_scope.
Notation "c ;;; k" := (Py.bind c (fun _ => k))
(at level 61, right associativity) : py_scope.

Definition enumerate {A : Type} (xs : list A) : list (nat * A) :=
combine (seq 0 (List.length xs)) xs.

(** ** The program *)

Section Program.
Context {Mesh Graph : Type}.
Context {shapely : Shapely} {trimesh : Trimesh Mesh} {osmnx : OSMnx Graph}.

Local Open Scope py_scope.
Import Py.

Local Abbreviation M := (@Py.M Mesh).

(** [Polygon([(0,0), (20,0), (20,20), (0,20)])] *)
Definition fallback_building : Geometry :=
  Polygon (mkPolygon [(0, 0); (20, 0); (20, 20); (0, 20)] []).

(** [LineString([(5,5), (15,15)])] *)
Definition fallback_path : Geometry :=
  LineString [(5, 5); (15, 15)].

(** Lines 76-79: the part of largest area of a multi-polygon, any
    other union as it is. *)
Definition largest_part (all_buildings : Geometry) : Result Geometry :=
  match all_buildings with
  | MultiPolygon geoms => py_max area (map Polygon geoms)
  | _ => Return all_buildings
  end.

(** Lines 70-84, the buildings branch. *)
Definition process_buildings (buildings : list Geometry) : M Geometry :=
  if (List.length buildings =? 0)%nat then
    print (Line "Using fallback building (20x20m)") ;;;
    ret fallback_building
  else
    let all_buildings := unary_union buildings in
    building_poly <- lift (largest_part all_buildings) ;;
    building_poly <- (if negb (is_valid building_poly)
                      then lift (buffer building_poly 0)
                      else ret building_poly) ;;
    ret (simplify building_poly 2.0).

(** Lines 93-96, the body of the loop over the edges: [paths] is the
    list built so far. *)
Definition process_edge (edge_geometry : Geometry) (paths : list Geometry)
  : M (list Geometry) :=
  admitted <- (if isinstance_LineString edge_geometry
               then cs <- lift (coords edge_geometry) ;; ret (2 <=? List.length cs)%nat
               else ret false) ;;
  if admitted : bool then
    let path := simplify edge_geometry 1.0 in
    if is_valid path then ret (paths ++ [path]) else ret paths
  else ret paths.

(** Lines 89-102, the paths branch. *)
Definition process_paths (graph : option Graph) : M (list Geometry) :=
  paths <- match graph with
           | Some g =>
               let edges := graph_to_gdfs g in
               for_each edges process_edge []
           | None => ret []
           end ;;
  paths <- (if (List.length paths =? 0)%nat then
              print (Line "Using fallback path") ;;;
              ret [fallback_path]
            else ret paths) ;;
  print (FoundPaths (List.length paths)) ;;;
  ret paths.

Definition process_geometries (buildings : list Geometry) (graph : option Graph)
  : M (Geometry * list Geometry) :=
  print (Line "PROCESSING GEOMETRIES") ;;;
  building_poly <- process_buildings buildings ;;
  paths <- process_paths graph ;;
  ret (building_poly, paths).

(** Lines 113-119. *)
Definition create_building_mesh (building_poly : Geometry) : M Mesh :=
  try_except
    (print (Line "Creating building mesh...") ;;;
     lift (extrude_polygon building_poly 10))
    (fun _ => ret (box (20, 20, 10))).

(** Lines 124-130, the body of the loop over the paths: [path_meshes]
    is the list built so far.  Nothing after the [append] raises, so a
    handled exception leaves the list as it was. *)
Definition create_path_mesh (ipath : nat * Geometry) (path_meshes : list Mesh)
  : M (list Mesh) :=
  let '(i, path) := ipath in
  try_except
    (path_2d <- lift (buffer path 0.5) ;;
     path_mesh <- lift (extrude_polygon path_2d 0.3) ;;
     let path_meshes := path_meshes ++ [path_mesh] in
     print (PathBounds i (bounds path_mesh)) ;;;
     ret path_meshes)
    (fun e => print (PathFailed i e) ;;; ret path_meshes).

Definition generate_3d_model (building_poly : Geometry) (paths : list Geometry)
    (output_file : string) : M unit :=
  print (Line "GENERATING 3D MODEL") ;;;
  building_mesh <- create_building_mesh building_poly ;;
  path_meshes <- for_each (enumerate paths) create_path_mesh [] ;;
  let combined_mesh :=
    match path_meshes with
    | _ :: _ => concatenate ([building_mesh] ++ path_meshes)
    | [] => building_mesh
    end in
  if is_empty combined_mesh then
    raise (ValueError "Final mesh is empty!")
  else
    let combined_mesh :=
      apply_translation combined_mesh (vneg (centroid combined_mesh)) in
    export combined_mesh output_file ;;;
    print (Saved output_file).

End Program.

(** ** Views of the two loops

    What one edge adds to [paths], and what one path adds to
    [path_meshes]; the loops are shown below to compute exactly
    these. *)

Section Views.
Context {Mesh : Type} {shapely : Shapely} {trimesh : Trimesh Mesh}.

Definition edge_paths (edge_geometry : Geometry) : list Geometry :=
  match edge_geometry with
  | LineString cs | LinearRing cs =>
      if (2 <=? List.length cs)%nat
      then if is_valid (simplify edge_geometry 1.0)
           then [simplify edge_geometry 1.0] else []
      else []
  | _ => []
  end.



(** The mesh of one path: widen by 0.5, extrude to 0.3. *)
Definition path_mesh (path : Geometry) : Result Mesh :=
  match buffer path 0.5 with
  | Return path_2d => extrude_polygon path_2d 0.3
  | Raise e => Raise e
  end.

Definition path_meshes_of (paths : list Geometry) : list Mesh :=
  flat_map (fun path => match path_mesh path with
                        | Return m => [m]
                        | Raise _ => []
                        end) paths.

Definition path_output (i : nat) (path : Geometry) : Output :=
  match path_mesh path with
  | Return m => PathBounds i (bounds m)
  | Raise e => PathFailed i e
  end.

Fixpoint paths_output (i : nat) (paths : list Geometry) : list Output :=
  match paths with
  | [] => []
  | path :: rest => path_output i path :: paths_output (S i) rest
  end.

Definition building_mesh_of (building_poly : Geometry) : Mesh :=
  match extrude_polygon building_poly 10 with
  | Return m => m
  | Raise _ => box (20, 20, 10)
  end.

(** The mesh [generate_3d_model] tests for emptiness. *)
Definition combined_mesh_of (building_poly : Geometry) (paths : list Geometry) : Mesh :=
  match path_meshes_of paths with
  | _ :: _ => concatenate (building_mesh_of building_poly :: path_meshes_of paths)
  | [] => building_mesh_of building_poly
  end.

(** The model that is exported. *)
Definition centered_mesh_of (building_poly : Geometry) (paths : list Geometry) : Mesh :=
  let combined_mesh := combined_mesh_of building_poly paths in
  apply_translation combined_mesh (vneg (centroid combined_mesh)).

(** The world after some more lines of output. *)
Definition say (out : list Output) (w : World Mesh) : World Mesh :=
  mkWorld (stdout w ++ out) (files w).

(** Lines 82-84 on the selected polygon: repair when invalid, then
    simplify with tolerance 2.0. *)
Definition clean_geometry (building_poly : Geometry) : Result Geometry :=
  match (if negb (is_valid building_poly)
         then buffer building_poly 0 else Return building_poly) with
  | Return cleaned => Return (simplify cleaned 2.0)
  | Raise e => Raise e
  end.

End Views.

(** ** A reference implementation of the libraries

    shapely, trimesh and osmnx are not part of the program.  This is an
    executable implementation of the three interfaces over exact
    rationals, written from what the specification says of each
    operation, for running the program on concrete inputs.  Validity is
    ring simplicity; simplification is Douglas-Peucker, kept only where
    the result is still valid; areas and centroids are exact.  Where the
    real operation needs an overlay or square roots the reference is
    coarser, and says so. *)

Module Reference.

Definition sub2 (a b : coord) : coord := (fst a - fst b, snd a - snd b).
Definition cross2 (u v : coord) : Q := fst u * snd v - snd u * fst v.
Definition dot2 (u v : coord) : Q := fst u * fst v + snd u * snd v.
Definition Qmin (x y : Q) : Q := if Qle_bool x y then x else y.
Definition Qmax (x y : Q) : Q := if Qle_bool x y then y else x.
Definition coord_eqb (a b : coord) : bool :=
  Qeq_bool (fst a) (fst b) && Qeq_bool (snd a) (snd b).

(** Squared distance from [p] to the segment [a b]. *)
Definition dist_sq (a b p : coord) : Q :=
  let ab := sub2 b a in
  let ap := sub2 p a in
  let len := dot2 ab ab in
  if Qeq_bool len 0 then dot2 ap ap
  else
    let t := dot2 ap ab in
    if Qle_bool t 0 then dot2 ap ap
    else if Qle_bool len t then dot2 (sub2 p b) (sub2 p b)
    else cross2 ab ap * cross2 ab ap / len.

(** The interior point farthest from the chord, with its index. *)
Fixpoint farthest (a b : coord) (cs : list coord) (i : nat) (best : Q * nat) : Q * nat :=
  match cs with
  | [] => best
  | c :: rest =>
      let d := dist_sq a b c in
      farthest a b rest (S i) (if Qltb (fst best) d then (d, i) else best)
  end.

(** Modelled from the spec: the simplification idiom of shapely (not
    under src/), "removing vertices within [tolerance] distance units of
    the simplified line (a Douglas-Peucker-style tolerance)": a section
    whose interior points all lie within the tolerance of its chord
    becomes the chord; otherwise it is split at the farthest point. *)
Fixpoint douglas_peucker (fuel : nat) (tolerance : Q) (cs : list coord) : list coord :=
  match fuel with
  | O => cs
  | S fuel =>
      match cs with
      | a :: ((_ :: _ :: _) as rest) =>
          let b := last rest a in
          let '(d, i) := farthest a b (removelast rest) 1 (0, O) in
          if Qltb (tolerance * tolerance) d
          then douglas_peucker fuel tolerance (firstn (S i) cs)
               ++ tl (douglas_peucker fuel tolerance (skipn i cs))
          else [a; b]
      | _ => cs
      end
  end.

Definition simplify_curve (tolerance : Q) (cs : list coord) : list coord :=
  douglas_peucker (List.length cs) tolerance cs.

(** A ring is simplified as the closed curve from its first vertex back
    to it. *)
Definition simplify_ring (tolerance : Q) (cs : list coord) : list coord :=
  match cs with
  | [] => []
  | c0 :: _ => removelast (simplify_curve tolerance (cs ++ [c0]))
  end.

(** Orientation of [c] relative to the line [a b]. *)
Definition orient (a b c : coord) : comparison :=
  cross2 (sub2 b a) (sub2 c a) ?= 0.

Definition between (a b c : coord) : bool :=
  Qle_bool (Qmin (fst a) (fst b)) (fst c) && Qle_bool (fst c) (Qmax (fst a) (fst b))
  && Qle_bool (Qmin (snd a) (snd b)) (snd c) && Qle_bool (snd c) (Qmax (snd a) (snd b)).

Definition comparison_eqb (x y : comparison) : bool :=
  match x, y with
  | Eq, Eq | Lt, Lt | Gt, Gt => true
  | _, _ => false
  end.

(** Do the closed segments [a b] and [c d] meet? *)
Definition segments_meet (a b c d : coord) : bool :=
  let o1 := orient a b c in
  let o2 := orient a b d in
  let o3 := orient c d a in
  let o4 := orient c d b in
  (negb (comparison_eqb o1 o2) && negb (comparison_eqb o3 o4))
  || (comparison_eqb o1 Eq && between a b c)
  || (comparison_eqb o2 Eq && between a b d)
  || (comparison_eqb o3 Eq && between c d a)
  || (comparison_eqb o4 Eq && between c d b).

(** Consecutive edges [a b], [b c]: neither has length zero and the
    second does not fold back over the first. *)
Definition corner_ok (a b c : coord) : bool :=
  negb (coord_eqb a b) && negb (coord_eqb b c)
  && negb (comparison_eqb (orient a b c) Eq
           && Qltb (dot2 (sub2 b a) (sub2 c b)) 0).

Definition ring_edges (cs : list coord) : list (coord * coord) :=
  match cs with
  | [] => []
  | c0 :: rest => combine cs (rest ++ [c0])
  end.

Definition edges_ok (n : nat) (ie je : nat * (coord * coord)) : bool :=
  let '(i, (a, b)) := ie in
  let '(j, (c, d)) := je in
  if (j =? S i)%nat then corner_ok a b d
  else if ((i =? 0) && (S j =? n))%nat then corner_ok c d b
  else negb (segments_meet a b c d).

Fixpoint all_pairs {A : Type} (ok : A -> A -> bool) (xs : list A) : bool :=
  match xs with
  | [] => true
  | x :: rest => forallb (ok x) rest && all_pairs ok rest
  end.

(** A simple ring: at least three vertices, and two edges meet only at
    the vertex consecutive edges share. *)
Definition ring_simple (cs : list coord) : bool :=
  let n := List.length cs in
  (3 <=? n)%nat && all_pairs (edges_ok n) (enumerate (ring_edges cs)).

Definition polygon_valid (p : polygon) : bool :=
  match exterior p with
  | [] => match interiors p with [] => true | _ => false end
  | _ => ring_simple (exterior p) && forallb ring_simple (interiors p)
  end.

Definition curve_valid (cs : list coord) : bool :=
  match cs with
  | [] => true
  | c0 :: rest => existsb (fun c => negb (coord_eqb c0 c)) rest
  end.

(** Modelled from the spec: [is_valid] of shapely (not under src/),
    "topologically valid (non-self-intersecting)".  Polygons are judged
    by their rings (how holes lie in the shell, and the parts of a
    multi-polygon to each other, is not examined); curves by having two
    distinct points. *)
Fixpoint valid (g : Geometry) : bool :=
  match g with
  | Point _ | MultiPoint _ => true
  | LineString cs => curve_valid cs
  | LinearRing cs => ring_simple cs
  | Polygon p => polygon_valid p
  | MultiLineString ls => forallb curve_valid ls
  | MultiPolygon geoms => forallb polygon_valid geoms
  | GeometryCollection gs => forallb valid gs
  end.

Definition simplify_polygon (tolerance : Q) (p : polygon) : polygon :=
  let p' := mkPolygon (simplify_ring tolerance (exterior p))
                      (map (simplify_ring tolerance) (interiors p)) in
  if polygon_valid p' then p' else p.

(** Modelled from the spec: [simplify] of shapely (not under src/),
    which preserves topology: the Douglas-Peucker result where it is
    valid, the geometry unchanged where it is not. *)
Definition ref_simplify (g : Geometry) (tolerance : Q) : Geometry :=
  match g with
  | LineString cs =>
      let cs' := simplify_curve tolerance cs in
      if curve_valid cs' then LineString cs' else g
  | LinearRing cs =>
      let cs' := simplify_ring tolerance cs in
      if ring_simple cs' then LinearRing cs' else g
  | Polygon p => Polygon (simplify_polygon tolerance p)
  | MultiPolygon geoms => MultiPolygon (map (simplify_polygon tolerance) geoms)
  | _ => g
  end.

Fixpoint all_coords (g : Geometry) : list coord :=
  match g with
  | Point c => [c]
  | LineString cs | LinearRing cs | MultiPoint cs => cs
  | Polygon p => exterior p
  | MultiLineString ls => List.concat ls
  | MultiPolygon geoms => flat_map exterior geoms
  | GeometryCollection gs => flat_map all_coords gs
  end.

Definition Qmin_list (d : Q) (xs : list Q) : Q := fold_left Qmin xs d.
Definition Qmax_list (d : Q) (xs : list Q) : Q := fold_left Qmax xs d.

(** The envelope of some coordinates, grown by [d] on every side. *)
Definition envelope (d : Q) (cs : list coord) : polygon :=
  match cs with
  | [] => mkPolygon [] []
  | (x0, y0) :: rest =>
      let x1 := Qmin_list x0 (map fst rest) - d in
      let x2 := Qmax_list x0 (map fst rest) + d in
      let y1 := Qmin_list y0 (map snd rest) - d in
      let y2 := Qmax_list y0 (map snd rest) + d in
      mkPolygon [(x1, y1); (x2, y1); (x2, y2); (x1, y2)] []
  end.

(** Modelled from the spec: [buffer] of shapely (not under src/).
    With distance zero, "a standard validity-repair idiom": a valid
    geometry unchanged, an invalid one collapsed to the empty polygon.
    With another distance, "expanding it outward" on each side:
    coarsely, the grown envelope (the true outline has round caps). *)
Definition ref_buffer (g : Geometry) (distance : Q) : Result Geometry :=
  if Qeq_bool distance 0
  then Return (if valid g then g else Polygon (mkPolygon [] []))
  else Return (Polygon (envelope distance (all_coords g))).

Definition polygons_of (g : Geometry) : option (list polygon) :=
  match g with
  | Polygon p => Some [p]
  | MultiPolygon geoms => Some geoms
  | _ => None
  end.

Fixpoint all_polygons (gs : list Geometry) : option (list polygon) :=
  match gs with
  | [] => Some []
  | g :: rest =>
      match polygons_of g, all_polygons rest with
      | Some ps, Some qs => Some (ps ++ qs)
      | _, _ => None
      end
  end.

Definition envelopes_apart (p q : polygon) : bool :=
  match exterior p, exterior q with
  | (x0, y0) :: ps, (u0, v0) :: qs =>
      Qltb (Qmax_list x0 (map fst ps)) (Qmin_list u0 (map fst qs))
      || Qltb (Qmax_list u0 (map fst qs)) (Qmin_list x0 (map fst ps))
      || Qltb (Qmax_list y0 (map snd ps)) (Qmin_list v0 (map snd qs))
      || Qltb (Qmax_list v0 (map snd qs)) (Qmin_list y0 (map snd ps))
  | _, _ => true
  end.

(** Modelled from the spec: [unary_union] of shapely (not under
    src/), "the geometric union of all input polygons", without an
    overlay: one polygon is its own union, polygons whose envelopes are
    pairwise apart form a multi-polygon of "multiple disjoint parts";
    any other family is returned unmerged, as a collection. *)
Definition ref_unary_union (gs : list Geometry) : Geometry :=
  match all_polygons gs with
  | Some [p] => Polygon p
  | Some ((_ :: _ :: _) as ps) =>
      if all_pairs envelopes_apart ps then MultiPolygon ps else GeometryCollection gs
  | _ => GeometryCollection gs
  end.

#[export] Instance shapely : Shapely := {|
  unary_union := ref_unary_union;
  is_valid := valid;
  buffer := ref_buffer;
  simplify := ref_simplify
|}.

End Reference.

Module ReferenceMesh.
Import Reference.

(** A mesh as the list of its triangles, each with its three
    vertices. *)
Definition triangle : Type := (vec3 * vec3 * vec3)%type.
Definition Mesh : Type := list triangle.

Definition at_height (z : Q) (c : coord) : vec3 := (fst c, snd c, z).

(** A cap, fanned from the first vertex of the ring (exact for a convex
    footprint). *)
Fixpoint fan (z : Q) (c0 : coord) (cs : list coord) : list triangle :=
  match cs with
  | a :: ((b :: _) as rest) => (at_height z c0, at_height z a, at_height z b) :: fan z c0 rest
  | _ => []
  end.

Definition wall (h : Q) (e : coord * coord) : list triangle :=
  let '(a, b) := e in
  [(at_height 0 a, at_height 0 b, at_height h b);
   (at_height 0 a, at_height h b, at_height h a)].

Definition prism (cs : list coord) (h : Q) : Mesh :=
  match cs with
  | [] => []
  | c0 :: rest => fan 0 c0 rest ++ fan h c0 rest ++ flat_map (wall h) (ring_edges cs)
  end.

(** Modelled from the spec: [extrude_polygon] of trimesh (not under
    src/), "lifting a 2D shape into a 3D prism by sweeping it along a
    fixed height", failing on a "degenerate polygon": the prism over a
    valid, non-empty polygon; any other argument raises.  Footprints
    with holes are not triangulated by the reference and raise too. *)
Definition ref_extrude_polygon (g : Geometry) (height : Q) : Result Mesh :=
  match g with
  | Polygon p =>
      match exterior p, interiors p with
      | [], _ => Raise (ValueError "cannot triangulate an empty polygon")
      | _ :: _, [] =>
          if polygon_valid p then Return (prism (exterior p) height)
          else Raise (ValueError "cannot triangulate an invalid polygon")
      | _ :: _, _ :: _ => Raise (LibraryError "polygon with holes")
      end
  | _ => Raise (ValueError "not a Polygon")
  end.

Definition translate_triangle (v : vec3) (t : triangle) : triangle :=
  let '(a, b, c) := t in (vadd a v, vadd b v, vadd c v).

(** Modelled from the spec: [apply_translation] of trimesh (not under
    src/), "translate the entire mesh". *)
Definition ref_apply_translation (m : Mesh) (v : vec3) : Mesh :=
  map (translate_triangle v) m.

(** Modelled from the spec: [box] of trimesh (not under src/), "a
    rectangular box of size 20x20x10": the box with these edge lengths,
    centred at the origin. *)
Definition ref_box (extents : vec3) : Mesh :=
  let '(x, y, z) := extents in
  ref_apply_translation
    (prism [(- x / 2, - y / 2); (x / 2, - y / 2); (x / 2, y / 2); (- x / 2, y / 2)] z)
    (0, 0, - z / 2).

(** Modelled from the spec: [concatenate] of trimesh (not under src/),
    "concatenating their vertex/face buffers (no boolean union, no
    deduplication)". *)
Definition ref_concatenate (ms : list Mesh) : Mesh := List.concat ms.

(** Modelled from the spec: [is_empty] of trimesh (not under src/),
    "the combined mesh has no geometry". *)
Definition ref_is_empty (m : Mesh) : bool :=
  match m with
  | [] => true
  | _ :: _ => false
  end.

Definition xof (v : vec3) : Q := fst (fst v).
Definition yof (v : vec3) : Q := snd (fst v).
Definition zof (v : vec3) : Q := snd v.

(** The weight of a triangle in the centroid: the 1-norm of the cross
    product of two edges.  It is twice the area whenever the normal is
    parallel to an axis (every face of a box, every cap of a prism);
    the Euclidean norm of other faces needs a square root. *)
Definition weight (t : triangle) : Q :=
  let '(a, b, c) := t in
  let ux := xof b - xof a in let uy := yof b - yof a in let uz := zof b - zof a in
  let vx := xof c - xof a in let vy := yof c - yof a in let vz := zof c - zof a in
  Qabs' (uy * vz - uz * vy) + Qabs' (uz * vx - ux * vz) + Qabs' (ux * vy - uy * vx).

Definition center (proj : vec3 -> Q) (t : triangle) : Q :=
  let '(a, b, c) := t in (proj a + proj b + proj c) / 3.

Definition weighted_mean (wxs : list (Q * Q)) : Q :=
  Qsum (map (fun wx => fst wx * snd wx) wxs) / Qsum (map fst wxs).

(** The weights of the centroid: the triangle weights, or equal weights
    when those sum to zero. *)
Definition weight_of (m : Mesh) : triangle -> Q :=
  if Qeq_bool (Qsum (map weight m)) 0 then fun _ => 1 else weight.

(** Modelled from the spec: [centroid] of trimesh (not under src/),
    "the centroid of the combined mesh": the mean of the triangle
    centres, weighted. *)
Definition ref_centroid (m : Mesh) : vec3 :=
  let pairs proj := map (fun t => (weight_of m t, center proj t)) m in
  (weighted_mean (pairs xof), weighted_mean (pairs yof), weighted_mean (pairs zof)).

Definition vertices (m : Mesh) : list vec3 :=
  flat_map (fun t : triangle => let '(a, b, c) := t in [a; b; c]) m.

Definition ref_bounds (m : Mesh) : Bounds :=
  match vertices m with
  | [] => (origin, origin)
  | v :: vs =>
      ((Qmin_list (xof v) (map xof vs), Qmin_list (yof v) (map yof vs), Qmin_list (zof v) (map zof vs)),
       (Qmax_list (xof v) (map xof vs), Qmax_list (yof v) (map yof vs), Qmax_list (zof v) (map zof vs)))
  end.

#[export] Instance trimesh : Trimesh Mesh := {|
  extrude_polygon := ref_extrude_polygon;
  box := ref_box;
  concatenate := ref_concatenate;
  is_empty := ref_is_empty;
  centroid := ref_centroid;
  apply_translation := ref_apply_translation;
  bounds := ref_bounds
|}.

(** Modelled from the spec: the graph of osmnx (not under src/) as "a
    collection of raw path edge geometries". *)
Definition Graph : Type := list Geometry.

#[export] Instance osmnx : OSMnx Graph := {|
  graph_to_gdfs := fun g => g
|}.

Definition empty_world : World Mesh := mkWorld [] [].

End ReferenceMesh.

(** ** Inputs of the examples *)

Module Examples.


(** A self-intersecting ring. *)
Definition bowtie : Geometry :=
  Polygon (mkPolygon [(0, 0); (2, 2); (2, 0); (0, 2)] []).

Definition small_triangle : polygon := mkPolygon [(20, 0); (21, 0); (21, 1)] [].
Definition left_square : polygon := mkPolygon [(0, 0); (2, 0); (2, 2); (0, 2)] [].
Definition right_square : polygon := mkPolygon [(10, 0); (12, 0); (12, 2); (10, 2)] [].

(** Three footprints apart from each other; the two squares have the
    same area. *)
Definition three_footprints : list Geometry :=
  [Polygon small_triangle; Polygon left_square; Polygon right_square].


(** The empty curve: its ribbon is the empty polygon, which cannot be
    extruded. *)
Definition empty_curve : Geometry := LineString [].

(** The default output file of the command line. *)
Definition map_stl : string := "map.stl".

End Examples.

(** ** Fetching the data and the command line

    [fetch_map_data] and [main].  The queries to the geocoder and to
    the map server, and the projections, are the operations of one more
    interface, [MapSource]; each of them is called inside the [try] of
    [fetch_map_data] and may raise.  A printed text is kept without its
    leading blank line. *)

(** [int(x)] of a float: truncation towards zero. *)
Definition py_int (x : Q) : Z := Z.quot (Qnum x) (Zpos (Qden x)).

(** [str(n)] of an integer, as an f-string formats it: decimal digits,
    no padding. *)
Definition py_str (n : Z) : string := NilZero.string_of_int (Z.to_int n).

(** [str(e)] of an exception raised with one message. *)
Definition str_exn (e : exn) : string :=
  match e with
  | ValueError msg | NotImplementedError msg | LibraryError msg => msg
  end.

(** Line 45: [int((centroid.x + 180)/6) + 1]. *)
Definition utm_zone (centroid : coord) : Z :=
  (py_int ((fst centroid + 180) / 6) + 1)%Z.

(** Line 46: [f"EPSG:326{utm_zone}" if centroid.y >= 0 else
    f"EPSG:327{utm_zone}"]. *)
Definition utm_crs (centroid : coord) : string :=
  if Qle_bool 0 (snd centroid)
  then ("EPSG:326" ++ py_str (utm_zone centroid))%string
  else ("EPSG:327" ++ py_str (utm_zone centroid))%string.

(** What [fetch_map_data] asks of osmnx, geopandas and shapely:
    [ox.geocode_to_gdf(place).geometry.iloc[0]], [area.centroid] with
    its [x] and [y], [ox.features_from_polygon(area, tags={"building":
    True})], [buildings.to_crs(crs)], [ox.graph_from_polygon(area,
    network_type="walk")] and [ox.project_graph(graph, to_crs=crs)]. *)
Class MapSource (Graph : Type) : Type := {
  geocode_to_gdf : string -> Result Geometry;
  geometry_centroid : Geometry -> Result coord;
  features_from_polygon : Geometry -> Result (list Geometry);
  to_crs : list Geometry -> string -> Result (list Geometry);
  graph_from_polygon : Geometry -> Result Graph;
  project_graph : Graph -> string -> Result Graph
}.

Section Acquisition.
Context {Mesh Graph : Type}.
Context {shapely : Shapely} {trimesh : Trimesh Mesh} {osmnx : OSMnx Graph}.
Context {source : MapSource Graph}.

Local Open Scope py_scope.
Import Py.

Local Abbreviation M := (@Py.M Mesh).

(** Lines 31-63. *)
Definition fetch_map_data (place_name : string)
  : M (option (list Geometry) * option Graph) :=
  print (Line ("FETCHING DATA FOR: " ++ place_name)) ;;;
  try_except
    (area <- lift (geocode_to_gdf place_name) ;;
     buffered_area <- lift (buffer area 0.001) ;;
     centroid <- lift (geometry_centroid area) ;;
     let utm_crs := utm_crs centroid in
     print (Line "Fetching buildings...") ;;;
     buildings <- lift (features_from_polygon buffered_area) ;;
     buildings <- (if (0 <? List.length buildings)%nat
                   then lift (to_crs buildings utm_crs)
                   else ret buildings) ;;
     print (Line "Fetching walkways...") ;;;
     graph <- lift (graph_from_polygon buffered_area) ;;
     graph_proj <- lift (project_graph graph utm_crs) ;;
     ret (Some buildings, Some graph_proj))
    (fun e =>
       print (Line ("ERROR: " ++ str_exn e)) ;;;
       ret (None, None)).

(** ["="*50] *)
Definition rule : string := "==================================================".

(** Lines 157-159. *)
Definition banner (place : string) : list Output :=
  [Line rule; Line ("TACTILE MAP GENERATOR - " ++ place); Line rule].

(** Lines 151-174, with the parsed arguments [args.place] and
    [args.output]. *)
Definition main (place output : string) : M unit :=
  print (Line rule) ;;;
  print (Line ("TACTILE MAP GENERATOR - " ++ place)) ;;;
  print (Line rule) ;;;
  fetched <- fetch_map_data place ;;
  match fetched with
  | (Some buildings, Some graph) =>
      processed <- process_geometries buildings (Some graph) ;;
      let '(building_poly, paths) := processed in
      try_except
        (generate_3d_model building_poly paths output ;;;
         print (Line "SUCCESS: Map generated"))
        (fun e => print (Line ("ERROR: " ++ str_exn e)))
  | _ => print (Line "FAILED: Could not fetch map data")
  end.

(** What it takes for [fetch_map_data] to return [buildings] and
    [graph]: every query answers; footprints and walkways are those of
    the area grown by 0.001; both are projected to the one system
    computed from the centroid of the area itself; an empty frame of
    footprints is not projected. *)
Definition fetch_succeeds (place_name : string) (buildings : list Geometry)
    (graph_proj : Graph) : Prop :=
  exists area buffered_area centroid found graph,
    geocode_to_gdf place_name = Return area
    /\ buffer area 0.001 = Return buffered_area
    /\ geometry_centroid area = Return centroid
    /\ features_from_polygon buffered_area = Return found
    /\ (if (0 <? List.length found)%nat
        then to_crs found (utm_crs centroid) = Return buildings
        else buildings = found)
    /\ graph_from_polygon buffered_area = Return graph
    /\ project_graph graph (utm_crs centroid) = Return graph_proj.



End Acquisition.

(** Modelled from the spec: the data source (not under src/), which
    "supplies (a) a collection of building footprint polygons in planar
    metric coordinates and (b) a collection of path curves in the same
    coordinate frame".  The reference knows one place, answers every
    query about it from a table, and leaves coordinates as they are. *)
Module ReferenceSource.
Import Reference ReferenceMesh.

Definition known_place : string := "Ann Arbor, Michigan".

(** Its boundary, in degrees of longitude and latitude. *)
Definition boundary : Geometry :=
  Polygon (mkPolygon [(-83.8, 42.2); (-83.6, 42.2); (-83.6, 42.4); (-83.8, 42.4)] []).

(** The centre of that boundary. *)
Definition centre : coord := (-83.7, 42.3).

(** A name the reference does not know. *)
Definition unknown_place : string := "Nowhere".

Definition footprints : list Geometry :=
  [Polygon (mkPolygon [(0, 0); (10, 0); (10, 10); (0, 10)] [])].

Definition walkways : Graph := [LineString [(2, 2); (8, 8)]].

Definition ref_geocode (place : string) : Result Geometry :=
  if String.eqb place known_place then Return boundary
  else Raise (LibraryError "Nominatim could not geocode query").

(** The centre of the envelope. *)
Definition ref_geometry_centroid (g : Geometry) : Result coord :=
  match all_coords g with
  | [] => Raise (LibraryError "empty geometry has no coordinates")
  | (x0, y0) :: rest =>
      Return ((Qmin_list x0 (map fst rest) + Qmax_list x0 (map fst rest)) / 2,
              (Qmin_list y0 (map snd rest) + Qmax_list y0 (map snd rest)) / 2)
  end.

#[export] Instance source : MapSource Graph := {|
  geocode_to_gdf := ref_geocode;
  geometry_centroid := ref_geometry_centroid;
  features_from_polygon := fun _ => Return footprints;
  to_crs := fun buildings _ => Return buildings;
  graph_from_polygon := fun _ => Return walkways;
  project_graph := fun graph _ => Return graph
|}.

End ReferenceSource.

(** * Properties *)

Section MonadFacts.
Context {Mesh : Type}.
Import Py.

Lemma for_each_app {A S : Type} (body : A -> S -> @M Mesh S) :
  forall (xs ys : list A) (acc : S) (w : World Mesh),
    for_each (xs ++ ys) body acc w
    = bind (for_each xs body acc) (for_each ys body) w.
Proof.
  induction xs as [|x xs IH]; intros ys acc w; simpl.
  - reflexivity.
  - unfold bind. destruct (body x acc w) as [[a|e] w']; [|reflexivity].
    rewrite IH. reflexivity.
Qed.

End MonadFacts.

Section PathProperties.
Context {Mesh Graph : Type}.
Context {shapely : Shapely} {trimesh : Trimesh Mesh} {osmnx : OSMnx Graph}.
Import Py.

Lemma process_edge_run (g : Geometry) (paths : list Geometry) (w : World Mesh) :
  process_edge g paths w = (Return (paths ++ edge_paths g), w).
Proof.
  unfold process_edge, edge_paths, bind, lift, ret.
  destruct g; cbn -[Nat.leb]; rewrite ?app_nil_r; try reflexivity;
    (destruct (2 <=? List.length cs)%nat; cbn -[Nat.leb]; rewrite ?app_nil_r; [|reflexivity];
     match goal with |- context [is_valid ?p] => destruct (is_valid p) end;
     rewrite ?app_nil_r; reflexivity).
Qed.

Lemma process_edges_run (edges : list Geometry) :
  forall (paths : list Geometry) (w : World Mesh),
    for_each edges process_edge paths w
    = (Return (paths ++ flat_map edge_paths edges), w).
Proof.
  induction edges as [|g edges IH]; intros paths w; simpl.
  - unfold ret. now rewrite app_nil_r.
  - unfold bind. rewrite process_edge_run, IH. now rewrite <- app_assoc.
Qed.




Lemma process_paths_run (graph : option Graph) (w : World Mesh) :
  let kept := match graph with
              | Some g => flat_map edge_paths (graph_to_gdfs g)
              | None => []
              end in
  process_paths graph w
  = match kept with
    | [] => (Return [fallback_path],
             mkWorld (stdout w ++ [Line "Using fallback path"; FoundPaths 1]) (files w))
    | _ :: _ => (Return kept,
                 mkWorld (stdout w ++ [FoundPaths (List.length kept)]) (files w))
    end.
Proof.
  unfold process_paths, bind.
  destruct graph as [g|]; simpl.
  - rewrite process_edges_run. simpl.
    destruct (flat_map edge_paths (graph_to_gdfs g)) as [|p kept]; simpl.
    + unfold print, ret; simpl. now rewrite <- app_assoc.
    + reflexivity.
  - unfold print, ret; simpl. now rewrite <- app_assoc.
Qed.

End PathProperties.

Section MaxProperties.
Context {A : Type} (key : A -> Q).

Lemma Qltb_lt (x y : Q) : Qltb x y = true <-> x < y.
Proof.
  unfold Qltb. rewrite negb_true_iff. split.
  - intros H. apply Qnot_le_lt. intros L. apply Qle_bool_iff in L. congruence.
  - intros H. destruct (Qle_bool y x) eqn:E; [|reflexivity].
    apply Qle_bool_iff in E. exfalso. exact (Qlt_not_le _ _ H E).
Qed.

Lemma Qltb_ge (x y : Q) : Qltb x y = false <-> y <= x.
Proof.
  unfold Qltb. rewrite negb_false_iff. apply Qle_bool_iff.
Qed.

(** The loop of [max]: [best] is the first maximum of what has been
    seen, [before ++ best :: seen]; it stays so to the end. *)
Lemma max_loop_first_maximum :
  forall (rest before seen : list A) (best : A),
    (forall y, In y before -> key y < key best) ->
    (forall y, In y seen -> key y <= key best) ->
    exists before' x after',
      fold_left (fun best y => if Qltb (key best) (key y) then y else best) rest best = x
      /\ before ++ best :: seen ++ rest = before' ++ x :: after'
      /\ (forall y, In y before' -> key y < key x)
      /\ (forall y, In y after' -> key y <= key x).
Proof.
  induction rest as [|y rest IH]; intros before seen best Hb Hs; simpl.
  - exists before, best, seen. rewrite app_nil_r. auto.
  - destruct (Qltb (key best) (key y)) eqn:E.
    + apply Qltb_lt in E.
      destruct (IH (before ++ best :: seen) [] y) as (b' & x & a' & F & D & P1 & P2).
      * intros z Hz. apply in_app_or in Hz. destruct Hz as [Hz|[Hz|Hz]].
        -- eapply Qlt_trans; [apply Hb, Hz | exact E].
        -- now subst z.
        -- eapply Qle_lt_trans; [apply Hs, Hz | exact E].
      * intros z [].
      * exists b', x, a'. repeat split; auto.
        rewrite <- D. simpl. rewrite <- app_assoc. simpl. reflexivity.
    + apply Qltb_ge in E.
      destruct (IH before (seen ++ [y]) best) as (b' & x & a' & F & D & P1 & P2).
      * exact Hb.
      * intros z Hz. apply in_app_or in Hz. destruct Hz as [Hz|[Hz|[]]].
        -- now apply Hs.
        -- now subst z.
      * exists b', x, a'. repeat split; auto.
        rewrite <- D. rewrite <- app_assoc. reflexivity.
Qed.

Lemma py_max_first_maximum (xs : list A) :
  xs <> [] ->
  exists before x after,
    py_max key xs = Return x
    /\ xs = before ++ x :: after
    /\ (forall y, In y before -> key y < key x)
    /\ (forall y, In y after -> key y <= key x).
Proof.
  destruct xs as [|x0 rest]; [congruence|]. intros _.
  destruct (max_loop_first_maximum rest [] [] x0) as (b & x & a & F & D & P1 & P2);
    try (intros ? []).
  exists b, x, a. simpl in D. unfold py_max. rewrite F. auto.
Qed.

End MaxProperties.

Section BuildingProperties.
Context {Mesh : Type} {shapely : Shapely}.
Import Py.

Lemma process_buildings_run (buildings : list Geometry) (w : World Mesh) :
  buildings <> [] ->
  process_buildings buildings w
  = (match largest_part (unary_union buildings) with
     | Return building_poly => clean_geometry building_poly
     | Raise e => Raise e
     end, w).
Proof.
  intros NE. unfold process_buildings.
  destruct buildings as [|b bs]; [congruence|]. cbn [List.length Nat.eqb].
  unfold bind, lift, ret, clean_geometry.
  destruct (largest_part (unary_union (b :: bs))) as [bp|e]; [|reflexivity].
  destruct (is_valid bp); cbn [negb]; [reflexivity|].
  destruct (buffer bp 0); reflexivity.
Qed.

Lemma largest_part_first_maximum (geoms : list polygon) :
  geoms <> [] ->
  exists before p after,
    largest_part (MultiPolygon geoms) = Return (Polygon p)
    /\ geoms = before ++ p :: after
    /\ (forall q, In q before -> area (Polygon q) < area (Polygon p))
    /\ (forall q, In q after -> area (Polygon q) <= area (Polygon p)).
Proof.
  intros NE.
  destruct (py_max_first_maximum area (map Polygon geoms))
    as (b & x & a & F & D & P1 & P2).
  { destruct geoms; [congruence | discriminate]. }
  apply map_eq_app in D. destruct D as (b' & r & -> & <- & R).
  apply map_eq_cons in R. destruct R as (p & a' & -> & <- & <-).
  exists b', p, a'. repeat split; auto.
  - intros q Hq. apply P1. now apply in_map.
  - intros q Hq. apply P2. now apply in_map.
Qed.

End BuildingProperties.

Section MeshProperties.
Context {Mesh : Type} {shapely : Shapely} {trimesh : Trimesh Mesh}.
Import Py.

Lemma say_say (o1 o2 : list Output) (w : World Mesh) :
  say o2 (say o1 w) = say (o1 ++ o2) w.
Proof. unfold say; simpl. now rewrite app_assoc. Qed.

Lemma say_nil (w : World Mesh) : say [] w = w.
Proof. destruct w. unfold say; simpl. now rewrite app_nil_r. Qed.

Lemma create_building_mesh_run (building_poly : Geometry) (w : World Mesh) :
  create_building_mesh building_poly w
  = (Return (building_mesh_of building_poly), say [Line "Creating building mesh..."] w).
Proof.
  unfold create_building_mesh, try_except, bind, print, lift, ret, building_mesh_of, say.
  simpl. destruct (extrude_polygon building_poly 10); reflexivity.
Qed.

Lemma create_path_mesh_run (i : nat) (path : Geometry) (acc : list Mesh) (w : World Mesh) :
  create_path_mesh (i, path) acc w
  = (Return (acc ++ path_meshes_of [path]), say [path_output i path] w).
Proof.
  unfold create_path_mesh, try_except, bind, print, lift, ret, path_meshes_of,
    path_output, path_mesh, say.
  simpl. destruct (buffer path 0.5) as [path_2d|e]; simpl.
  - destruct (extrude_polygon path_2d 0.3); simpl; rewrite ?app_nil_r; reflexivity.
  - rewrite app_nil_r. reflexivity.
Qed.

Lemma path_meshes_of_app (xs ys : list Geometry) :
  path_meshes_of (xs ++ ys) = path_meshes_of xs ++ path_meshes_of ys.
Proof. unfold path_meshes_of. apply flat_map_app. Qed.

Lemma path_loop_run (paths : list Geometry) :
  forall (i : nat) (acc : list Mesh) (w : World Mesh),
    for_each (combine (seq i (List.length paths)) paths) create_path_mesh acc w
    = (Return (acc ++ path_meshes_of paths), say (paths_output i paths) w).
Proof.
  induction paths as [|p paths IH]; intros i acc w;
    cbn [for_each combine seq List.length paths_output].
  - unfold ret. cbn [path_meshes_of flat_map]. now rewrite app_nil_r, say_nil.
  - unfold bind. rewrite create_path_mesh_run, IH, say_say.
    change (path_meshes_of (p :: paths)) with (path_meshes_of ([p] ++ paths)).
    rewrite path_meshes_of_app, app_assoc. reflexivity.
Qed.

Lemma generate_3d_model_run (building_poly : Geometry) (paths : list Geometry)
    (output_file : string) (w : World Mesh) :
  let w1 := say ([Line "GENERATING 3D MODEL"; Line "Creating building mesh..."]
                 ++ paths_output 0 paths) w in
  generate_3d_model building_poly paths output_file w
  = if is_empty (combined_mesh_of building_poly paths)
    then (Raise (ValueError "Final mesh is empty!"), w1)
    else (Return tt,
          mkWorld (stdout w1 ++ [Saved output_file])
                  ((output_file, centered_mesh_of building_poly paths) :: files w)).
Proof.
  intros w1. unfold generate_3d_model, bind.
  change (print (Line "GENERATING 3D MODEL") w)
    with (Return tt, say [Line "GENERATING 3D MODEL"] w).
  cbv beta iota. rewrite create_building_mesh_run. unfold enumerate.
  rewrite path_loop_run, !say_say. cbn [app].
  fold w1. unfold centered_mesh_of, combined_mesh_of.
  destruct (path_meshes_of paths) as [|m ms]; cbn [app];
    match goal with |- context [is_empty ?c] => destruct (is_empty c) end; reflexivity.
Qed.

End MeshProperties.

Section ReferenceCentroid.
Import Reference ReferenceMesh.

Lemma Qabs'_comp (x y : Q) : x == y -> Qabs' x == Qabs' y.
Proof.
  intros E. unfold Qabs'. rewrite (Qleb_comp 0 0 (Qeq_refl 0) x y E).
  destruct (Qle_bool 0 y); rewrite E; reflexivity.
Qed.

Lemma Qabs'_nonneg (x : Q) : 0 <= Qabs' x.
Proof.
  unfold Qabs'. destruct (Qle_bool 0 x) eqn:E.
  - now apply Qle_bool_iff.
  - assert (L : x < 0).
    { apply Qnot_le_lt. intros L. apply Qle_bool_iff in L. congruence. }
    apply Qlt_le_weak in L. apply Qopp_le_compat in L. exact L.
Qed.

Lemma weight_translate (v : vec3) (t : triangle) :
  weight (translate_triangle v t) == weight t.
Proof.
  destruct t as [[[[ax ay] az] [[bx by_] bz]] [[cx cy] cz]].
  destruct v as [[vx vy] vz].
  unfold weight, translate_triangle, vadd, xof, yof, zof; cbn [fst snd].
  repeat apply Qplus_comp; apply Qabs'_comp; ring.
Qed.

Lemma center_translate (proj : vec3 -> Q) (d : Q) (v : vec3) (t : triangle) :
  (forall a, proj (vadd a v) == proj a + d) ->
  center proj (translate_triangle v t) == center proj t + d.
Proof.
  intros P. destruct t as [[a b] c]. unfold center, translate_triangle.
  rewrite !P. field.
Qed.

Lemma Qsum_weights_translate (v : vec3) (m : Mesh) :
  Qsum (map weight (ref_apply_translation m v)) == Qsum (map weight m).
Proof.
  induction m as [|t m IH]; simpl; [reflexivity|].
  rewrite weight_translate, IH. reflexivity.
Qed.

Lemma weight_of_translate (v : vec3) (m : Mesh) (t : triangle) :
  weight_of (ref_apply_translation m v) (translate_triangle v t) == weight_of m t.
Proof.
  unfold weight_of.
  rewrite (Qeqb_comp _ _ (Qsum_weights_translate v m) 0 0 (Qeq_refl 0)).
  destruct (Qeq_bool (Qsum (map weight m)) 0); [reflexivity | apply weight_translate].
Qed.

(** Numerator and denominator of the weighted mean of a translated
    mesh, for any weights that the translation leaves alone. *)
Lemma mean_parts_translate (proj : vec3 -> Q) (d : Q) (v : vec3)
    (w w' : triangle -> Q) (m : Mesh) :
  (forall a, proj (vadd a v) == proj a + d) ->
  (forall t, w' (translate_triangle v t) == w t) ->
  let ps := map (fun t => (w t, center proj t)) m in
  let ps' := map (fun t => (w' t, center proj t)) (ref_apply_translation m v) in
  Qsum (map fst ps') == Qsum (map fst ps)
  /\ Qsum (map (fun wx => fst wx * snd wx) ps')
     == Qsum (map (fun wx => fst wx * snd wx) ps) + Qsum (map fst ps) * d.
Proof.
  intros P W. induction m as [|t m [IH1 IH2]]; cbn [map ref_apply_translation Qsum fold_right fst snd].
  - split; [reflexivity | ring].
  - unfold ref_apply_translation in *. cbn [map Qsum fold_right fst snd] in *.
    unfold Qsum in *. split.
    + rewrite W, IH1. reflexivity.
    + rewrite W, IH2, (center_translate proj d v t P). ring.
Qed.

Lemma Qsum_ones_pos {A : Type} (xs : list A) :
  xs <> [] -> 0 < Qsum (map (fun _ => 1) xs).
Proof.
  assert (N : forall ys : list A, 0 <= Qsum (map (fun _ => 1) ys)).
  { induction ys as [|y ys IH]; simpl; [apply Qle_refl|].
    change 0 with (0 + 0). apply Qplus_le_compat; [discriminate | exact IH]. }
  destruct xs as [|x xs]; [congruence|]. intros _. simpl.
  apply Qlt_le_trans with (1 + 0); [reflexivity|].
  apply Qplus_le_compat; [apply Qle_refl | apply N].
Qed.

Lemma weight_of_sum_nonzero (m : Mesh) :
  m <> [] -> ~ Qsum (map (fun t => weight_of m t) m) == 0.
Proof.
  intros NE. unfold weight_of.
  destruct (Qeq_bool (Qsum (map weight m)) 0) eqn:E.
  - intros Z0. pose proof (Qsum_ones_pos m NE) as P. rewrite Z0 in P.
    exact (Qlt_irrefl _ P).
  - intros Z0. apply Qeq_bool_neq in E. exact (E Z0).
Qed.

Lemma weighted_mean_translate (proj : vec3 -> Q) (d : Q) (v : vec3) (m : Mesh) :
  m <> [] ->
  (forall a, proj (vadd a v) == proj a + d) ->
  weighted_mean (map (fun t => (weight_of (ref_apply_translation m v) t, center proj t))
                     (ref_apply_translation m v))
  == weighted_mean (map (fun t => (weight_of m t, center proj t)) m) + d.
Proof.
  intros NE P.
  destruct (mean_parts_translate proj d v (weight_of m)
              (weight_of (ref_apply_translation m v)) m P (weight_of_translate v m))
    as [D N].
  unfold weighted_mean. rewrite N, D.
  pose proof (weight_of_sum_nonzero m NE) as NZ.
  field. rewrite map_map. cbn [fst]. exact NZ.
Qed.

(** The centroid of the reference follows a translation. *)
Lemma ref_centroid_translation (m : Mesh) (v : vec3) :
  ref_is_empty m = false ->
  veq (ref_centroid (ref_apply_translation m v)) (vadd (ref_centroid m) v).
Proof.
  intros NE. assert (NE' : m <> []) by (destruct m; [discriminate | congruence]).
  destruct v as [[vx vy] vz] eqn:V. unfold ref_centroid, veq, vadd. rewrite <- V.
  repeat split; apply weighted_mean_translate; auto; subst v;
    intros [[ax ay] az]; reflexivity.
Qed.

End ReferenceCentroid.

Section Claims.
Context {Mesh Graph : Type}.
Context {shapely : Shapely} {trimesh : Trimesh Mesh} {osmnx : OSMnx Graph}.
Import Py.



(** C3.  On an empty collection the buildings branch returns the square
    with corners (0,0), (20,0), (20,20), (0,20), of area exactly 400,
    whatever the geometry library is: no operation of the library is
    applied to it. *)
Theorem empty_input_fallback_square (graph : option Graph) (w : World Mesh) :
  process_buildings [] w
  = (Return (Polygon (mkPolygon [(0, 0); (20, 0); (20, 20); (0, 20)] [])),
     say [Line "Using fallback building (20x20m)"] w)
  /\ area (Polygon (mkPolygon [(0, 0); (20, 0); (20, 20); (0, 20)] [])) == 400
  /\ (forall other : Shapely,
        process_buildings (shapely := other) [] w = process_buildings [] w)
  /\ exists paths w',
       process_geometries [] graph w
       = (Return (Polygon (mkPolygon [(0, 0); (20, 0); (20, 20); (0, 20)] []), paths), w').
Proof.
  split; [reflexivity | split; [reflexivity | split; [reflexivity|]]].
  unfold process_geometries, bind.
  change (print (Line "PROCESSING GEOMETRIES") w)
    with (Return tt, say [Line "PROCESSING GEOMETRIES"] w).
  cbv beta iota.
  change (process_buildings [] (say [Line "PROCESSING GEOMETRIES"] w))
    with (Return fallback_building,
          say [Line "Using fallback building (20x20m)"]
              (say [Line "PROCESSING GEOMETRIES"] w)).
  cbv beta iota. rewrite process_paths_run. unfold ret, fallback_building.
  match goal with |- context [match ?k with [] => _ | _ :: _ => _ end] => destruct k end;
    eexists; eexists; reflexivity.
Qed.


(** C5.  When the extrusion of the footprint to height 10 raises, the
    building mesh is [box((20, 20, 10))] and nothing is raised: the
    exception is not what [generate_3d_model] returns, which goes on
    with the box. *)
Theorem building_extrusion_failure_falls_back (building_poly : Geometry) (e : exn) :
  extrude_polygon building_poly 10 = Raise e ->
  (forall w, create_building_mesh building_poly w
             = (Return (box (20, 20, 10)), say [Line "Creating building mesh..."] w))
  /\ (forall paths output_file w,
        fst (generate_3d_model building_poly paths output_file w)
        = if is_empty (match path_meshes_of paths with
                       | _ :: _ => concatenate (box (20, 20, 10) :: path_meshes_of paths)
                       | [] => box (20, 20, 10)
                       end)
          then Raise (ValueError "Final mesh is empty!")
          else Return tt).
Proof.
  intros E.
  assert (B : building_mesh_of building_poly = box (20, 20, 10)).
  { unfold building_mesh_of. now rewrite E. }
  split.
  - intros w. now rewrite create_building_mesh_run, B.
  - intros paths output_file w. rewrite generate_3d_model_run.
    unfold combined_mesh_of. rewrite B.
    match goal with |- context [is_empty ?c] => destruct (is_empty c) end; reflexivity.
Qed.

(** C6.  When widening a path by 0.5 or extruding it to height 0.3
    raises, the loop body reports the failure and leaves the list of
    meshes as it was; the loop goes on: the meshes of a list of paths
    with the failing one in it are those of the list without it, and so
    are the result of [generate_3d_model] and the files it has
    written. *)
Theorem failing_path_is_omitted (path : Geometry) (e : exn) :
  (buffer path 0.5 = Raise e \/
   exists path_2d, buffer path 0.5 = Return path_2d
                   /\ extrude_polygon path_2d 0.3 = Raise e) ->
  (forall i path_meshes w,
     create_path_mesh (i, path) path_meshes w
     = (Return path_meshes, say [PathFailed i e] w))
  /\ (forall before after w,
        exists w1 w2,
          for_each (enumerate (before ++ path :: after)) create_path_mesh [] w
          = (Return (path_meshes_of before ++ path_meshes_of after), w1)
          /\ for_each (enumerate (before ++ after)) create_path_mesh [] w
             = (Return (path_meshes_of before ++ path_meshes_of after), w2)
          /\ In (PathFailed (List.length before) e) (stdout w1))
  /\ (forall building_poly before after output_file w,
        fst (generate_3d_model building_poly (before ++ path :: after) output_file w)
        = fst (generate_3d_model building_poly (before ++ after) output_file w)
        /\ files (snd (generate_3d_model building_poly (before ++ path :: after) output_file w))
           = files (snd (generate_3d_model building_poly (before ++ after) output_file w))).
Proof.
  intros F.
  assert (PM : path_mesh path = Raise e).
  { unfold path_mesh. destruct F as [-> | (p2 & -> & ->)]; reflexivity. }
  assert (O : path_meshes_of [path] = []).
  { unfold path_meshes_of. cbn [flat_map]. now rewrite PM. }
  assert (A : forall before after,
             path_meshes_of (before ++ path :: after)
             = path_meshes_of before ++ path_meshes_of after).
  { intros before after. change (path :: after) with ([path] ++ after).
    now rewrite !path_meshes_of_app, O. }
  split; [|split].
  - intros i pm w. rewrite create_path_mesh_run, O, app_nil_r.
    unfold path_output. now rewrite PM.
  - intros before after w. unfold enumerate. rewrite !path_loop_run.
    cbn [app]. rewrite A, path_meshes_of_app.
    eexists; eexists. split; [reflexivity|]. split; [reflexivity|].
    cbn [say stdout]. apply in_or_app. right.
    change (List.length before) with (0 + List.length before)%nat.
    clear A. generalize 0%nat as i. induction before as [|b before IH]; intros i.
    + cbn [app paths_output List.length]. left. unfold path_output.
      rewrite PM, Nat.add_0_r. reflexivity.
    + cbn [app paths_output List.length]. right.
      rewrite Nat.add_succ_r. exact (IH (S i)).
  - intros bp before after f w. rewrite !generate_3d_model_run.
    unfold centered_mesh_of, combined_mesh_of. rewrite A, path_meshes_of_app.
    match goal with |- context [is_empty ?c] => destruct (is_empty c) end;
      cbn [fst snd files say]; auto.
Qed.

(** C7.  When the union of a non-empty collection is a multi-polygon,
    the part that goes on to be cleaned is a part of largest area, and
    the first such: every part before it in the order of the union is
    strictly smaller, every part after it is no larger. *)
Theorem dominant_part_first_largest (buildings : list Geometry)
    (geoms : list polygon) (w : World Mesh) :
  buildings <> [] ->
  unary_union buildings = MultiPolygon geoms ->
  geoms <> [] ->
  exists before p after,
    geoms = before ++ p :: after
    /\ (forall q, In q before -> area (Polygon q) < area (Polygon p))
    /\ (forall q, In q after -> area (Polygon q) <= area (Polygon p))
    /\ largest_part (MultiPolygon geoms) = Return (Polygon p)
    /\ process_buildings buildings w = (clean_geometry (Polygon p), w).
Proof.
  intros NE U G.
  destruct (largest_part_first_maximum geoms G) as (before & p & after & L & D & P1 & P2).
  exists before, p, after. repeat split; auto.
  rewrite (process_buildings_run buildings w NE), U, L. reflexivity.
Qed.

(** C8.  With a centroid that follows translations, whenever the
    combined mesh is not empty [generate_3d_model] returns, and the
    model it has written, the combined mesh translated by the negation
    of its centroid, has its centroid at the origin. *)
Theorem model_centered_at_origin (building_poly : Geometry)
    (paths : list Geometry) (output_file : string) (w : World Mesh) :
  (forall m v, is_empty m = false ->
     veq (centroid (apply_translation m v)) (vadd (centroid m) v)) ->
  is_empty (combined_mesh_of building_poly paths) = false ->
  exists model w',
    generate_3d_model building_poly paths output_file w = (Return tt, w')
    /\ files w' = (output_file, model) :: files w
    /\ model = apply_translation (combined_mesh_of building_poly paths)
                 (vneg (centroid (combined_mesh_of building_poly paths)))
    /\ veq (centroid model) origin.
Proof.
  intros T NE. rewrite generate_3d_model_run, NE.
  eexists; eexists. split; [reflexivity|]. split; [reflexivity|].
  split; [reflexivity|]. unfold centered_mesh_of.
  specialize (T _ (vneg (centroid (combined_mesh_of building_poly paths))) NE).
  destruct (centroid (apply_translation _ _)) as [[x y] z].
  destruct (centroid (combined_mesh_of building_poly paths)) as [[cx cy] cz].
  unfold veq, vadd, vneg, origin in *. destruct T as (Tx & Ty & Tz).
  rewrite Tx, Ty, Tz. repeat split; ring.
Qed.



End Claims.

Section ReferenceLaws.
Import Reference.



End ReferenceLaws.

Section Runs.
Import Reference ReferenceMesh Examples.

(** Of two parts of the same largest area, [max] keeps the first. *)
Example first_of_equal_parts :
  largest_part (MultiPolygon [small_triangle; left_square; right_square])
  = Return (Polygon left_square).
Proof. vm_compute. reflexivity. Qed.

(** No footprints and no graph: both fallbacks, and a model is
    written. *)
Example run_without_data :
  process_geometries (Graph := Graph) [] None empty_world
  = (Return (fallback_building, [fallback_path]),
     mkWorld [Line "PROCESSING GEOMETRIES"; Line "Using fallback building (20x20m)";
              Line "Using fallback path"; FoundPaths 1] [])
  /\ fst (generate_3d_model fallback_building [fallback_path] map_stl empty_world)
     = Return tt.
Proof. split; vm_compute; reflexivity. Qed.



(** C5 on a self-intersecting footprint, whose extrusion raises. *)
Lemma building_extrusion_failure_falls_back_witness :
  extrude_polygon bowtie 10 = Raise (ValueError "cannot triangulate an invalid polygon")
  /\ create_building_mesh bowtie empty_world
     = (Return (box (20, 20, 10)), say [Line "Creating building mesh..."] empty_world).
Proof.
  assert (E : extrude_polygon bowtie 10
              = Raise (ValueError "cannot triangulate an invalid polygon"))
    by (vm_compute; reflexivity).
  split; [exact E|].
  exact (proj1 (building_extrusion_failure_falls_back bowtie _ E) empty_world).
Defined.

(** C6 on an empty curve between two good paths. *)
Lemma failing_path_is_omitted_witness :
  (exists path_2d, buffer empty_curve 0.5 = Return path_2d
                   /\ extrude_polygon path_2d 0.3
                      = Raise (ValueError "cannot triangulate an empty polygon"))
  /\ fst (generate_3d_model fallback_building
            ([fallback_path] ++ empty_curve :: [fallback_path]) map_stl empty_world)
     = fst (generate_3d_model fallback_building
              ([fallback_path] ++ [fallback_path]) map_stl empty_world).
Proof.
  assert (F : exists path_2d, buffer empty_curve 0.5 = Return path_2d
                /\ extrude_polygon path_2d 0.3
                   = Raise (ValueError "cannot triangulate an empty polygon")).
  { eexists. split; vm_compute; reflexivity. }
  split; [exact F|].
  exact (proj1 (proj2 (proj2 (failing_path_is_omitted empty_curve _ (or_intror F)))
                  fallback_building [fallback_path] [fallback_path] map_stl empty_world)).
Defined.

(** C7 on three footprints apart from each other. *)
Lemma dominant_part_first_largest_witness :
  three_footprints <> []
  /\ unary_union three_footprints = MultiPolygon [small_triangle; left_square; right_square]
  /\ exists before p after,
       [small_triangle; left_square; right_square] = before ++ p :: after
       /\ (forall q, In q before -> area (Polygon q) < area (Polygon p))
       /\ (forall q, In q after -> area (Polygon q) <= area (Polygon p))
       /\ largest_part (MultiPolygon [small_triangle; left_square; right_square])
          = Return (Polygon p)
       /\ process_buildings three_footprints empty_world
          = (clean_geometry (Polygon p), empty_world).
Proof.
  assert (NE : three_footprints <> []) by discriminate.
  assert (U : unary_union three_footprints
              = MultiPolygon [small_triangle; left_square; right_square])
    by (vm_compute; reflexivity).
  split; [exact NE|]. split; [exact U|].
  refine (dominant_part_first_largest three_footprints _ empty_world NE U _).
  discriminate.
Defined.

(** C8 on the fallback footprint and the fallback path. *)
Lemma model_centered_at_origin_witness :
  is_empty (combined_mesh_of fallback_building [fallback_path]) = false
  /\ exists model w',
       generate_3d_model fallback_building [fallback_path] map_stl empty_world
       = (Return tt, w')
       /\ files w' = (map_stl, model) :: files empty_world
       /\ model = apply_translation (combined_mesh_of fallback_building [fallback_path])
                    (vneg (centroid (combined_mesh_of fallback_building [fallback_path])))
       /\ veq (centroid model) origin.
Proof.
  assert (NE : is_empty (combined_mesh_of fallback_building [fallback_path]) = false)
    by (vm_compute; reflexivity).
  split; [exact NE|].
  exact (model_centered_at_origin fallback_building [fallback_path] map_stl empty_world
           ref_centroid_translation NE).
Defined.



End Runs.

(** * Further properties: fetching, the command line, the logs *)

Section ZoneProperties.



(** X4.  The system named for a zone from 1 to 60 is "EPSG:" and a
    number: for a two-digit zone the number is 32600 plus the zone
    (32700 plus the zone south of the equator), the code of that zone;
    for a one-digit zone the digit is not padded and the number is 3260
    plus the zone (3270 plus the zone), which is not. *)
Theorem utm_crs_code (centroid : coord) :
  (1 <= utm_zone centroid <= 60)%Z ->
  utm_crs centroid
  = ("EPSG:" ++ py_str ((if Qle_bool 0 (snd centroid)
                          then (if (utm_zone centroid <? 10)%Z then 3260 else 32600)
                          else (if (utm_zone centroid <? 10)%Z then 3270 else 32700))
                         + utm_zone centroid))%string.
Proof.
  unfold utm_crs. generalize (utm_zone centroid) as z. intros z R.
  destruct (Qle_bool 0 (snd centroid));
    (destruct z as [|p|p]; [lia | | lia];
     do 6 (try destruct p as [p|p|]); try lia; reflexivity).
Qed.

End ZoneProperties.

Section FetchProperties.
Context {Mesh Graph : Type}.
Context {shapely : Shapely} {trimesh : Trimesh Mesh} {osmnx : OSMnx Graph}.
Context {source : MapSource Graph}.
Import Py.

Lemma fetch_succeeds_unique (place_name : string) (b b' : list Geometry) (g g' : Graph) :
  fetch_succeeds place_name b g -> fetch_succeeds place_name b' g' -> b = b' /\ g = g'.
Proof.
  intros (a1 & ba1 & c1 & f1 & g1 & A1 & B1 & C1 & F1 & T1 & G1 & P1)
         (a2 & ba2 & c2 & f2 & g2 & A2 & B2 & C2 & F2 & T2 & G2 & P2).
  rewrite A1 in A2. inversion A2; subst a2.
  rewrite B1 in B2. inversion B2; subst ba2.
  rewrite C1 in C2. inversion C2; subst c2.
  rewrite F1 in F2. inversion F2; subst f2.
  rewrite G1 in G2. inversion G2; subst g2.
  rewrite P1 in P2. inversion P2; subst g'.
  split; [|reflexivity].
  destruct (0 <? List.length f1)%nat; congruence.
Qed.

Ltac fetch_tail b :=
  match goal with
  | A : geocode_to_gdf ?place = Return ?area,
    B : buffer ?area _ = Return ?ba,
    C : geometry_centroid ?area = Return ?c,
    F : features_from_polygon ?ba = Return ?found |- _ =>
      let g := fresh "g" in let gp := fresh "gp" in
      let e := fresh "e" in let G := fresh "G" in let P := fresh "P" in
      destruct (graph_from_polygon ba) as [g|e] eqn:G;
      [ destruct (project_graph g (utm_crs c)) as [gp|e] eqn:P;
        [ left; exists b, gp; split;
          [ exists area, ba, c, found, g; repeat split; auto;
            match goal with N : (_ <? _)%nat = _ |- _ => rewrite N; auto end
          | unfold say; cbn; now rewrite <- !app_assoc ]
        | right; split;
          [ intros ? ? (? & ? & ? & ? & ? & ? & ? & ? & ? & ? & ? & ?); congruence
          | exists e, [Line "Fetching buildings..."; Line "Fetching walkways..."];
            unfold say; cbn; now rewrite <- !app_assoc ] ]
      | right; split;
        [ intros ? ? (? & ? & ? & ? & ? & ? & ? & ? & ? & ? & ? & ?); congruence
        | exists e, [Line "Fetching buildings..."; Line "Fetching walkways..."];
          unfold say; cbn; now rewrite <- !app_assoc ] ]
  end.

Lemma fetch_map_data_cases (place_name : string) (w : World Mesh) :
  (exists b g,
      fetch_succeeds place_name b g
      /\ fetch_map_data place_name w
         = (Return (Some b, Some g),
            say [Line ("FETCHING DATA FOR: " ++ place_name);
                 Line "Fetching buildings..."; Line "Fetching walkways..."] w))
  \/ ((forall b g, ~ fetch_succeeds place_name b g)
      /\ exists e out,
           fetch_map_data place_name w
           = (Return (None, None),
              say (Line ("FETCHING DATA FOR: " ++ place_name)
                   :: out ++ [Line ("ERROR: " ++ str_exn e)]) w)).
Proof.
  unfold fetch_map_data, bind, try_except, lift, ret, print. cbn [stdout files].
  destruct (geocode_to_gdf place_name) as [area|e] eqn:A.
  2:{ right. split.
      - intros b g (a & ? & ? & ? & ? & A' & _). congruence.
      - exists e, []. unfold say. cbn. now rewrite <- app_assoc. }
  destruct (buffer area 0.001) as [ba|e] eqn:B.
  2:{ right. split.
      - intros b g (a & ? & ? & ? & ? & A' & B' & _). congruence.
      - exists e, []. unfold say. cbn. now rewrite <- app_assoc. }
  destruct (geometry_centroid area) as [c|e] eqn:C.
  2:{ right. split.
      - intros b g (a & ? & ? & ? & ? & A' & B' & C' & _). congruence.
      - exists e, []. unfold say. cbn. now rewrite <- app_assoc. }
  cbn [stdout files].
  destruct (features_from_polygon ba) as [found|e] eqn:F.
  2:{ right. split.
      - intros b g (a & ? & ? & ? & ? & A' & B' & C' & F' & _). congruence.
      - exists e, [Line "Fetching buildings..."]. unfold say. cbn.
        now rewrite <- !app_assoc. }
  destruct (0 <? List.length found)%nat eqn:N.
  - destruct (to_crs found (utm_crs c)) as [b|e] eqn:T.
    2:{ right. split.
        - intros b g (a & ba' & c' & f' & g0 & A' & B' & C' & F' & T' & _).
          rewrite A in A'; inversion A'; subst a. rewrite B in B'; inversion B'; subst ba'.
          rewrite C in C'; inversion C'; subst c'. rewrite F in F'; inversion F'; subst f'.
          rewrite N in T'. congruence.
        - exists e, [Line "Fetching buildings..."]. unfold say. cbn.
          now rewrite <- !app_assoc. }
    cbn [stdout files]. fetch_tail b.
  - cbn [stdout files]. fetch_tail found.
Qed.

End FetchProperties.

Section ProcessProperties.
Context {Mesh Graph : Type}.
Context {shapely : Shapely} {trimesh : Trimesh Mesh} {osmnx : OSMnx Graph}.
Import Py.











End ProcessProperties.

Section ModelProperties.
Context {Mesh : Type} {shapely : Shapely} {trimesh : Trimesh Mesh}.
Import Py.

Lemma paths_output_length (paths : list Geometry) :
  forall k, List.length (paths_output k paths) = List.length paths.
Proof.
  induction paths as [|p paths IH]; intros k; cbn [paths_output List.length];
    [reflexivity | now rewrite IH].
Qed.

Lemma paths_output_nth (paths : list Geometry) :
  forall k i path,
    nth_error paths i = Some path ->
    nth_error (paths_output k paths) i = Some (path_output (k + i) path).
Proof.
  induction paths as [|p paths IH]; intros k i path H.
  - destruct i; discriminate.
  - destruct i as [|i]; cbn [nth_error paths_output] in *.
    + inversion H. now rewrite Nat.add_0_r.
    + rewrite (IH (S k) i path H). f_equal. f_equal. lia.
Qed.

Lemma path_mesh_cases (path : Geometry) :
  (exists path_2d m,
      buffer path 0.5 = Return path_2d /\ extrude_polygon path_2d 0.3 = Return m
      /\ path_mesh path = Return m)
  \/ (exists e,
        (buffer path 0.5 = Raise e
         \/ exists path_2d, buffer path 0.5 = Return path_2d
                            /\ extrude_polygon path_2d 0.3 = Raise e)
        /\ path_mesh path = Raise e).
Proof.
  unfold path_mesh. destruct (buffer path 0.5) as [p2|e] eqn:B.
  - destruct (extrude_polygon p2 0.3) as [m|e] eqn:E.
    + left. exists p2, m. auto.
    + right. exists e. split; [right; exists p2; auto | reflexivity].
  - right. exists e. auto.
Qed.

(** X7.  [generate_3d_model] reports every path exactly once, in order
    and under its index: after its two opening lines it prints one line
    per path, the bounds of the mesh of path [i] when widening and
    extrusion succeed, the exception of path [i] when one of them
    raises, and after them nothing but the line of the saved file. *)
Theorem every_path_is_reported (building_poly : Geometry) (paths : list Geometry)
    (output_file : string) (w : World Mesh) :
  exists reports rest,
    stdout (snd (generate_3d_model building_poly paths output_file w))
    = stdout w ++ [Line "GENERATING 3D MODEL"; Line "Creating building mesh..."]
      ++ reports ++ rest
    /\ List.length reports = List.length paths
    /\ (forall i path,
          nth_error paths i = Some path ->
          (exists path_2d m,
              buffer path 0.5 = Return path_2d
              /\ extrude_polygon path_2d 0.3 = Return m
              /\ nth_error reports i = Some (PathBounds i (bounds m)))
          \/ (exists e,
                (buffer path 0.5 = Raise e
                 \/ exists path_2d, buffer path 0.5 = Return path_2d
                                    /\ extrude_polygon path_2d 0.3 = Raise e)
                /\ nth_error reports i = Some (PathFailed i e)))
    /\ (rest = [] \/ rest = [Saved output_file]).
Proof.
  exists (paths_output 0 paths).
  assert (R : forall i path,
             nth_error paths i = Some path ->
             (exists path_2d m,
                 buffer path 0.5 = Return path_2d
                 /\ extrude_polygon path_2d 0.3 = Return m
                 /\ nth_error (paths_output 0 paths) i = Some (PathBounds i (bounds m)))
             \/ (exists e,
                   (buffer path 0.5 = Raise e
                    \/ exists path_2d, buffer path 0.5 = Return path_2d
                                       /\ extrude_polygon path_2d 0.3 = Raise e)
                   /\ nth_error (paths_output 0 paths) i = Some (PathFailed i e))).
  { intros i path H. rewrite (paths_output_nth paths 0 i path H). cbn [Nat.add].
    unfold path_output.
    destruct (path_mesh_cases path) as [(p2 & m & B & E & ->) | (e & F & ->)].
    - left. exists p2, m. auto.
    - right. exists e. auto. }
  rewrite generate_3d_model_run.
  destruct (is_empty (combined_mesh_of building_poly paths)).
  - exists []. cbn [snd say stdout]. rewrite app_nil_r. split; [reflexivity|].
    split; [apply paths_output_length|]. split; [exact R | now left].
  - exists [Saved output_file]. cbn [snd say stdout]. rewrite <- !app_assoc.
    split; [reflexivity|]. split; [apply paths_output_length|].
    split; [exact R | now right].
Qed.


End ModelProperties.

Section MainProperties.
Context {Mesh Graph : Type}.
Context {shapely : Shapely} {trimesh : Trimesh Mesh} {osmnx : OSMnx Graph}.
Context {source : MapSource Graph}.
Import Py.


(** X2.  [fetch_map_data] returns footprints and a graph exactly when
    every query answers, and then they are: the footprints and the
    walking graph of the area grown by 0.001, both projected to the one
    system named from the centroid of the area as geocoded; an empty
    frame of footprints is returned as it is, without projection. *)
Theorem fetch_map_data_returns_iff (place_name : string)
    (buildings : list Geometry) (graph : Graph) (w : World Mesh) :
  fst (fetch_map_data place_name w) = Return (Some buildings, Some graph)
  <-> fetch_succeeds place_name buildings graph.
Proof.
  destruct (fetch_map_data_cases place_name w) as [(b & g & S & ->) | (N & e & out & ->)];
    cbn [fst].
  - split.
    + intros H. inversion H. now subst.
    + intros S'. destruct (fetch_succeeds_unique _ _ _ _ _ S S') as [-> ->]. reflexivity.
  - split; [discriminate|]. intros S. destruct (N _ _ S).
Qed.





Lemma main_unfold (place output : string) (w : World Mesh) :
  main place output w
  = match fetch_map_data place (say (banner place) w) with
    | (Return (Some buildings, Some graph), w1) =>
        match process_geometries buildings (Some graph) w1 with
        | (Return (building_poly, paths), w2) =>
            match generate_3d_model building_poly paths output w2 with
            | (Return _, w3) => (Return tt, say [Line "SUCCESS: Map generated"] w3)
            | (Raise e, w3) => (Return tt, say [Line ("ERROR: " ++ str_exn e)] w3)
            end
        | (Raise e, w2) => (Raise e, w2)
        end
    | (Return _, w1) => (Return tt, say [Line "FAILED: Could not fetch map data"] w1)
    | (Raise e, w1) => (Raise e, w1)
    end.
Proof.
  unfold main, bind.
  change (print (Line rule) w) with (Return tt, say [Line rule] w). cbv beta iota.
  change (print (Line ("TACTILE MAP GENERATOR - " ++ place)) (say [Line rule] w))
    with (Return tt, say [Line ("TACTILE MAP GENERATOR - " ++ place)] (say [Line rule] w)).
  cbv beta iota.
  change (print (Line rule) (say [Line ("TACTILE MAP GENERATOR - " ++ place)]
                               (say [Line rule] w)))
    with (Return tt, say [Line rule] (say [Line ("TACTILE MAP GENERATOR - " ++ place)]
                                        (say [Line rule] w))).
  cbv beta iota. rewrite !say_say. cbn [app]. fold (banner place).
  destruct (fetch_map_data place (say (banner place) w)) as [[[[b|] [g|]]|e] w1];
    try reflexivity.
  destruct (process_geometries b (Some g) w1) as [[[bp ps]|e] w2]; [|reflexivity].
  unfold try_except, bind.
  destruct (generate_3d_model bp ps output w2) as [[[]|e] w3]; reflexivity.
Qed.

(** X9.  When the data cannot be fetched (some query raises), [main]
    reports the failure and returns: it raises nothing, writes no file,
    and its last line is "FAILED: Could not fetch map data". *)
Theorem main_without_data (place output : string) (w : World Mesh) :
  (forall buildings graph, ~ fetch_succeeds place buildings graph) ->
  fst (main place output w) = Return tt
  /\ files (snd (main place output w)) = files w
  /\ exists out,
       stdout (snd (main place output w))
       = stdout w ++ out ++ [Line "FAILED: Could not fetch map data"].
Proof.
  intros N. rewrite main_unfold.
  destruct (fetch_map_data_cases place (say (banner place) w))
    as [(b & g & S & _) | (_ & e & out & ->)]; [destruct (N _ _ S)|].
  cbn [fst snd say files stdout]. split; [reflexivity|]. split; [reflexivity|].
  exists (banner place ++ Line ("FETCHING DATA FOR: " ++ place)
                          :: out ++ [Line ("ERROR: " ++ str_exn e)]).
  rewrite <- !app_assoc. reflexivity.
Qed.



End MainProperties.

Section FurtherRuns.
Import Reference ReferenceMesh ReferenceSource Examples.


(** X4 at the centroid of the known place: "EPSG:32617". *)
Lemma utm_crs_code_witness :
  (1 <= utm_zone centre <= 60)%Z
  /\ utm_crs centre = "EPSG:32617"%string.
Proof.
  assert (R : (1 <= utm_zone centre <= 60)%Z) by (vm_compute; split; discriminate).
  split; [exact R|].
  exact (utm_crs_code centre R).
Defined.


Lemma nowhere_is_unknown (buildings : list Geometry) (graph : Graph) :
  ~ fetch_succeeds unknown_place buildings graph.
Proof.
  intros (area & ba & c & found & g & A & _). vm_compute in A. discriminate.
Qed.

(** X9 on a place the reference does not know. *)
Lemma main_without_data_witness :
  (forall buildings graph, ~ fetch_succeeds unknown_place buildings graph)
  /\ fst (main unknown_place map_stl empty_world) = Return tt
  /\ files (snd (main unknown_place map_stl empty_world)) = files empty_world.
Proof.
  split; [exact nowhere_is_unknown|].
  pose proof (main_without_data unknown_place map_stl empty_world nowhere_is_unknown)
    as (R & F & _).
  split; [exact R | exact F].
Defined.



End FurtherRuns.
